(** * generate_telemetry.py: a supervisor for three otelgen children

    The script builds one otelgen command line per telemetry type, starts
    the three children with [subprocess.Popen], installs a SIGINT handler,
    waits for the children in launch order and always ends with a
    best-effort termination pass.

    The embedding is shallow.  Pure parts of the script (the command
    lines, the start-up banner) are Rocq functions.  The effectful part
    runs in a small monad: a computation reads and updates the state (the
    list [processes] shared by the loop, the signal handler and the
    [finally] block), writes the trace of the library calls it makes, and
    ends with a value or a Python exception, so that
    [try]/[except]/[finally] can be written as the script has them.
    Everything the operating system decides (whether a launch, a wait or
    a termination request raises, and when SIGINT arrives) is read from a
    [world]. *)

From Stdlib Require Import ZArith String Ascii List Bool Lia DecimalString.
Import ListNotations.

Local Open Scope string_scope.
Local Open Scope list_scope.

(** ** Python values used by the script *)

(** [str(n)] for a Python [int]: decimal digits, a leading minus sign for
    negative numbers. *)
Definition str (n : Z) : string := NilZero.string_of_int (Z.to_int n).

(** [sep.join(l)]. *)
Definition join (sep : string) (l : list string) : string := String.concat sep l.

(** The one-character string written [\n] in the source. *)
Definition nl : string := String (ascii_of_nat 10) EmptyString.

(** ** Command lines (lines 17-33 and 39) *)

(** [base_cmd] after lines 17-26.  The test [if duration:] is Python
    truthiness on an optional integer: [None] and [0] are both false. *)
Definition base_cmd (endpoint : string) (rate : Z) (duration : option Z)
  : list string :=
  let base_cmd :=
    [ "otelgen";
      "--otel-exporter-otlp-endpoint"; endpoint;
      "--rate"; str rate;
      "--service-name"; "locol-test-generator";
      "--insecure" ] in
  match duration with
  | None => base_cmd
  | Some d => if (d =? 0)%Z then base_cmd else base_cmd ++ ["--duration"; str d]
  end.

(** The dictionary of lines 29-33; a Python dictionary iterates in
    insertion order, so it is kept as an association list. *)
Definition telemetry_commands : list (string * list string) :=
  [ ("traces",  ["traces"; "multi"]);
    ("metrics", ["metrics"; "sum"]);
    ("logs",    ["logs"; "multi"]) ].

(** ** Exceptions, events and the outside world *)

(** A child is identified by the rank of the [Popen] call that made it. *)
Definition handle := nat.

(** The subclasses of [Exception] the script tells apart:
    [FileNotFoundError], which [Popen] raises when the program is not
    found, and any other one, with its text [str(e)]. *)
Inductive error :=
| FileNotFoundError
| OtherError (msg : string).

(** What can travel up the stack.  [SystemExit] and [KeyboardInterrupt]
    derive from [BaseException] only, so [except Exception] lets them
    through. *)
Inductive exn :=
| Error (e : error)
| SystemExit (code : Z)
| KeyboardInterrupt.

(** The calls the script makes on the outside, in the order it makes them. *)
Inductive event :=
| EPrint (line : string)
| EPopen (cmd : list string)
| ESignal
| EWait (p : handle)
| ETerminate (p : handle).

(** Moments of the [try] body at which SIGINT may arrive: during the
    [i]-th turn of the launch loop, between the launch loop and
    [signal.signal], or while [wait] blocks on child [p].  Within a turn
    of the launch loop the world tells the place (field [sigint_late]
    below): as the [Popen] call begins, or after it has returned and
    before line 42 records the child.  A run sees at most one SIGINT; the
    [except] clauses and the [finally] block run undisturbed. *)
Inductive point :=
| AtPopen (i : nat)
| AtSignal
| AtWait (p : handle).

Definition point_eqb (a b : point) : bool :=
  match a, b with
  | AtPopen i, AtPopen j => Nat.eqb i j
  | AtSignal, AtSignal => true
  | AtWait p, AtWait q => Nat.eqb p q
  | _, _ => false
  end.

(** [terminate] is called from the signal handler (line 47) and from the
    [finally] block (line 67). *)
Inductive site := InHandler | InCleanup.

(** The answers of the outside: the error the [i]-th [Popen] call raises,
    the error the wait on [p] raises, the error a termination request
    raises ([None] when the call returns), and the moment SIGINT arrives.
    [sigint_late] matters when that moment is [AtPopen i]: [false] places
    the signal before the call of line 41, [true] after the call has
    returned and before [processes.append] of line 42, when the child
    runs and is not yet in the list.  A wait that is reached returns,
    raises or is interrupted: runs that block for ever have no exit and
    no trace here. *)
Record world := MkWorld {
  popen_error : nat -> option error;
  wait_error : handle -> option error;
  terminate_error : site -> handle -> option error;
  sigint : option point;
  sigint_late : bool
}.

(** A world in which SIGINT, if it arrives during a turn of the launch
    loop, arrives as the [Popen] call begins. *)
Definition World (popen_error : nat -> option error)
    (wait_error : handle -> option error)
    (terminate_error : site -> handle -> option error)
    (sigint : option point) : world :=
  MkWorld popen_error wait_error terminate_error sigint false.

(** How the interpreter ends: a status given to [sys.exit] (or 0 when the
    script runs off its end), an unhandled [KeyboardInterrupt], or an
    unhandled error. *)
Inductive termination :=
| Exit (status : Z)
| Interrupted
| Crashed (e : error).

(** ** The monad *)

(** The mutable part of the run: the list [processes] of line 36, shared
    by the launch loop, the signal handler and the [finally] block; the
    number of [Popen] calls made so far; and whether line 50 has run. *)
Record state := State {
  processes : list handle;
  popen_calls : nat;
  handler_installed : bool
}.

Definition initial : state := State [] 0 false.

Inductive result (A : Type) :=
| Ok (a : A)
| Raise (e : exn).
Arguments Ok {A} a.
Arguments Raise {A} e.

(** A computation reads the state and gives the events it caused, the new
    state and a value or an exception.  A raised exception keeps the
    events and the state reached so far. *)
Definition M (A : Type) : Type := state -> list event * state * result A.

Definition ret {A} (a : A) : M A := fun s => ([], s, Ok a).

Definition bind {A B} (c : M A) (k : A -> M B) : M B :=
  fun s =>
    match c s with
    | (t1, s1, Ok a) => let '(t2, s2, r) := k a s1 in (t1 ++ t2, s2, r)
    | (t1, s1, Raise e) => (t1, s1, Raise e)
    end.

Definition raise {A} (e : exn) : M A := fun s => ([], s, Raise e).

Declare Scope py_scope.
Delimit Scope py_scope with py.
Notation "x <- c ;; k" := (bind c (fun x => k))
  (at level 61, c at next level, right associativity) : py_scope.
Notation "c ;; k" := (bind c (fun _ => k))
  (at level 61, right associativity) : py_scope.
Local Open Scope py_scope.

(** [for x in l: f(x)]; an exception leaves the loop. *)
Fixpoint for_each {A} (f : A -> M unit) (l : list A) : M unit :=
  match l with
  | [] => ret tt
  | x :: l' => f x ;; for_each f l'
  end.

(** [try: body / except: pass], the bare clause of lines 66-69: it
    catches every exception, [BaseException] included. *)
Definition try_pass (body : M unit) : M unit :=
  fun s =>
    match body s with
    | (t, s', Ok a) => (t, s', Ok a)
    | (t, s', Raise _) => (t, s', Ok tt)
    end.

(** [try: body / except ...: handlers / finally: final].  [handlers e] is
    the body of the first clause that matches [e], if any.  The [finally]
    block runs on every path; an exception of its own replaces the one in
    flight. *)
Definition try_except_finally {A} (body : M A)
    (handlers : exn -> option (M A)) (final : M unit) : M A :=
  fun s =>
    let '(t1, s1, r1) := body s in
    let '(t2, s2, r2) :=
      match r1 with
      | Ok a => ([], s1, Ok a)
      | Raise e =>
          match handlers e with
          | Some h => h s1
          | None => ([], s1, Raise e)
          end
      end in
    match final s2 with
    | (t3, s3, Ok _) => (t1 ++ t2 ++ t3, s3, r2)
    | (t3, s3, Raise e) => (t1 ++ t2 ++ t3, s3, Raise e)
    end.

Definition emit (e : event) : M unit := fun s => ([e], s, Ok tt).

Definition print (line : string) : M unit := emit (EPrint line).

Definition sys_exit {A} (code : Z) : M A := raise (SystemExit code).

Definition get_processes : M (list handle) := fun s => ([], s, Ok (processes s)).

(** [processes.append(process)]. *)
Definition processes_append (p : handle) : M unit :=
  fun s => ([], State (processes s ++ [p]) (popen_calls s) (handler_installed s),
            Ok tt).

(** The number of [Popen] calls made so far, and its increment. *)
Definition get_popen_calls : M nat := fun s => ([], s, Ok (popen_calls s)).

Definition count_popen : M unit :=
  fun s => ([], State (processes s) (S (popen_calls s)) (handler_installed s),
            Ok tt).

Definition install_handler : M unit :=
  fun s => ([], State (processes s) (popen_calls s) true, Ok tt).

Section Script.

Variable w : world.

Definition arrives (pt : point) : bool :=
  match sigint w with
  | Some q => point_eqb q pt
  | None => false
  end.

(** [p.terminate()]. *)
Definition terminate (from : site) (p : handle) : M unit :=
  emit (ETerminate p) ;;
  match terminate_error w from p with
  | None => ret tt
  | Some e => raise (Error e)
  end.

(** Lines 44-48. *)
Definition signal_handler : M unit :=
  print (nl ++ "Stopping telemetry generation...")%string ;;
  ps <- get_processes ;;
  for_each (terminate InHandler) ps ;;
  sys_exit 0.

(** SIGINT arriving at [pt], at this place when [here] holds: the
    installed handler runs at that moment; before line 50 the
    interpreter's default handler raises [KeyboardInterrupt]. *)
Definition deliver_if (here : bool) (pt : point) : M unit :=
  fun s =>
    if arrives pt then
      if here then
        if handler_installed s then signal_handler s
        else ([], s, Raise KeyboardInterrupt)
      else ([], s, Ok tt)
    else ([], s, Ok tt).

Definition deliver (pt : point) : M unit := deliver_if true pt.

(** [subprocess.Popen(cmd)]. *)
Definition popen (cmd : list string) : M handle :=
  i <- get_popen_calls ;;
  deliver_if (negb (sigint_late w)) (AtPopen i) ;;
  emit (EPopen cmd) ;;
  count_popen ;;
  match popen_error w i with
  | None => ret i
  | Some e => raise (Error e)
  end.

(** [signal.signal(signal.SIGINT, signal_handler)]. *)
Definition signal_signal : M unit :=
  deliver AtSignal ;;
  emit ESignal ;;
  install_handler.

(** [p.wait()]. *)
Definition wait (p : handle) : M unit :=
  emit (EWait p) ;;
  deliver (AtWait p) ;;
  match wait_error w p with
  | None => ret tt
  | Some e => raise (Error e)
  end.

(** ** The script *)

(** Lines 38-42.  Between the return of [Popen] and the append the child
    runs without being in [processes]; a SIGINT placed there by the world
    is delivered at that point. *)
Definition launch (base : list string) (entry : string * list string)
  : M unit :=
  let '(telemetry_type, cmd_args) := entry in
  let cmd := base ++ cmd_args in
  print ("Starting " ++ telemetry_type ++ " generator: " ++ join " " cmd)%string ;;
  process <- popen cmd ;;
  deliver_if (sigint_late w) (AtPopen process) ;;
  processes_append process.

(** Lines 38-54, the body of the [try]. *)
Definition try_body (base : list string) : M unit :=
  for_each (launch base) telemetry_commands ;;
  signal_signal ;;
  ps <- get_processes ;;
  for_each wait ps.

(** Lines 56-62. *)
Definition except_clauses (e : exn) : option (M unit) :=
  match e with
  | Error FileNotFoundError =>
      Some (print "Error: otelgen not found. Please install it with:" ;;
            print "go install github.com/krzko/otelgen@latest" ;;
            sys_exit 1)
  | Error (OtherError msg) =>
      Some (print ("Error running otelgen: " ++ msg)%string ;;
            sys_exit 1)
  | SystemExit _ | KeyboardInterrupt => None
  end.

(** Lines 63-69. *)
Definition cleanup : M unit :=
  ps <- get_processes ;;
  for_each (fun p => try_pass (terminate InCleanup p)) ps.

Definition run_otelgen (endpoint : string) (rate : Z) (duration : option Z)
  : M unit :=
  try_except_finally
    (try_body (base_cmd endpoint rate duration))
    except_clauses
    cleanup.

(** The namespace returned by [parse_args]. *)
Record args := Args {
  endpoint : string;
  rate : Z;
  duration : option Z
}.

(** Lines 82-89.  [if args.duration:] is the truthiness test again. *)
Definition main (a : args) : M unit :=
  print "Starting telemetry generation..." ;;
  print ("Endpoint: " ++ endpoint a)%string ;;
  print ("Rate: " ++ str (rate a) ++ " seconds")%string ;;
  match duration a with
  | None => ret tt
  | Some d =>
      if (d =? 0)%Z then ret tt
      else print ("Duration: " ++ str d ++ " seconds")%string
  end ;;
  print (nl ++ "Press Ctrl+C to stop")%string ;;
  run_otelgen (endpoint a) (rate a) (duration a).

(** The status the interpreter leaves with. *)
Definition status_of (r : result unit) : termination :=
  match r with
  | Ok _ => Exit 0
  | Raise (SystemExit code) => Exit code
  | Raise KeyboardInterrupt => Interrupted
  | Raise (Error e) => Crashed e
  end.

(** The script once [parse_args] has returned the namespace [a]: lines
    82-89 and the call of [run_otelgen], from an empty [processes].  The
    parser's own exits (a usage error, [--help]) happen before line 82
    and are not runs of [script]. *)
Definition script (a : args) : list event * termination :=
  let '(t, _, r) := main a initial in (t, status_of r).

(** The handles in [processes] when the run ends. *)
Definition recorded (a : args) : list handle :=
  processes (snd (fst (main a initial))).

End Script.

(** ** Observations on a run *)

(** The lines [main] prints before it calls [run_otelgen]. *)
Definition banner (a : args) : list string :=
  [ "Starting telemetry generation...";
    ("Endpoint: " ++ endpoint a)%string;
    ("Rate: " ++ str (rate a) ++ " seconds")%string ]
  ++ match duration a with
     | None => []
     | Some d =>
         if (d =? 0)%Z then []
         else [("Duration: " ++ str d ++ " seconds")%string]
     end
  ++ [ (nl ++ "Press Ctrl+C to stop")%string ].

(** The command lines handed to [Popen], in call order. *)
Definition spawned (t : list event) : list (list string) :=
  flat_map (fun e => match e with EPopen cmd => [cmd] | _ => [] end) t.

(** The children that exist after trace [t]: the [Popen] calls of [t] that
    did not raise. *)
Definition started (w : world) (t : list event) : list handle :=
  filter (fun i => match popen_error w i with None => true | Some _ => false end)
         (seq 0 (length (spawned t))).

Definition is_call (e : event) : bool :=
  match e with EPopen _ | EWait _ => true | _ => false end.

(** The launches and waits of a trace, everything else left out. *)
Definition calls (t : list event) : list event := filter is_call t.

(** The value option [flag] has on a command line, read the way a flag
    parser reads the words after the program name: [--insecure] stands
    alone, any other word that begins with two dashes takes the next word
    as its value, and the first other word opens the sub-command. *)
Fixpoint option_value (flag : string) (words : list string) : option string :=
  match words with
  | [] => None
  | o :: rest =>
      if String.eqb o "--insecure" then option_value flag rest
      else if String.prefix "--" o then
        match rest with
        | [] => None
        | v :: rest' => if String.eqb o flag then Some v else option_value flag rest'
        end
      else None
  end.

Definition duration_argument (cmd : list string) : option string :=
  option_value "--duration" (tl cmd).

Definition rate_argument (cmd : list string) : option string :=
  option_value "--rate" (tl cmd).

(** The command line of one dictionary entry, line 39. *)
Definition invocation (a : args) (entry : string * list string) : list string :=
  base_cmd (endpoint a) (rate a) (duration a) ++ snd entry.

(** What one turn of the launch loop shows when [Popen] is reached:
    the line of line 40 and the call of line 41. *)
Definition launch_events (a : args) (k : nat) : list event :=
  flat_map
    (fun entry =>
       [ EPrint ("Starting " ++ fst entry ++ " generator: "
                 ++ join " " (invocation a entry))%string;
         EPopen (invocation a entry) ])
    (firstn k telemetry_commands).

(** ** Worlds *)

(** Nothing fails and no signal arrives. *)
Definition calm : world :=
  World (fun _ => None) (fun _ => None) (fun _ _ => None) None.

(** SIGINT arrives at [pt]; nothing fails. *)
Definition interrupt_at (pt : point) : world :=
  World (fun _ => None) (fun _ => None) (fun _ _ => None) (Some pt).

(** The [k]-th launch raises [e]. *)
Definition launch_failure (k : nat) (e : error) : world :=
  World (fun i => if Nat.eqb i k then Some e else None)
        (fun _ => None) (fun _ _ => None) None.

(** The wait on child [p] raises [e]. *)
Definition wait_failure (p : handle) (e : error) : world :=
  World (fun _ => None) (fun q => if Nat.eqb q p then Some e else None)
        (fun _ _ => None) None.

(** Configurations used as examples: the defaults of the command line,
    a bounded run, a duration of 0, and negative values. *)
Definition default_args : args := Args "localhost:4317" 5 None.
Definition bounded_args : args := Args "collector:4317" 2 (Some 30%Z).
Definition negative_rate_args : args := Args "localhost:4317" (-1) (Some 0%Z).
Definition negative_args : args := Args "localhost:4317" (-2) (Some (-30)%Z).

(** [w] with the termination requests of the [finally] block answered
    by [f]. *)
Definition with_cleanup_errors (f : handle -> option error) (w : world) : world :=
  MkWorld (popen_error w) (wait_error w)
          (fun from p =>
             match from with
             | InCleanup => f p
             | InHandler => terminate_error w InHandler p
             end)
          (sigint w) (sigint_late w).

(** The first [k] launches go through: no error, no signal. *)
Definition launched (w : world) (k : nat) : Prop :=
  forall i, i < k -> popen_error w i = None /\ arrives w (AtPopen i) = false.

(** Where in the [try] body an error comes up. *)
Inductive stage :=
| Launching (k : nat)
| Waiting (p : handle).

(** The run gets as far as [st] without a signal or an error, and there
    the call raises [e]. *)
Definition raises (w : world) (st : stage) (e : error) : Prop :=
  match st with
  | Launching k =>
      k < 3 /\ launched w k
      /\ arrives w (AtPopen k) = false /\ popen_error w k = Some e
  | Waiting p =>
      p < 3 /\ launched w 3 /\ arrives w AtSignal = false
      /\ (forall q, q < p -> wait_error w q = None /\ arrives w (AtWait q) = false)
      /\ arrives w (AtWait p) = false /\ wait_error w p = Some e
  end.

(** The events of the [try] body up to and including the call that
    raises at [st], and the children that exist at that moment. *)
Definition events_until (a : args) (st : stage) : list event :=
  match st with
  | Launching k => launch_events a (S k)
  | Waiting p => launch_events a 3 ++ [ESignal] ++ map EWait (seq 0 (S p))
  end.

Definition children_at (st : stage) : list handle :=
  match st with
  | Launching k => seq 0 k
  | Waiting _ => [0; 1; 2]
  end.

(** The command lines of a full launch, written out. *)
Definition fixed_options (a : args) : list string :=
  [ "otelgen"; "--otel-exporter-otlp-endpoint"; endpoint a;
    "--rate"; str (rate a);
    "--service-name"; "locol-test-generator"; "--insecure" ].

Definition duration_option (a : args) : list string :=
  match duration a with
  | None => []
  | Some d => if (d =? 0)%Z then [] else ["--duration"; str d]
  end.

Definition expected_invocations (a : args) : list (list string) :=
  [ fixed_options a ++ duration_option a ++ ["traces"; "multi"];
    fixed_options a ++ duration_option a ++ ["metrics"; "sum"];
    fixed_options a ++ duration_option a ++ ["logs"; "multi"] ].

(** Launches in dictionary order, then waits in launch order. *)
Definition canonical (a : args) : list event :=
  map (fun entry => EPopen (invocation a entry)) telemetry_commands
  ++ map EWait [0; 1; 2].

(** The effect of the [except] clauses on the outcome of the [try] body,
    as data: the lines they print and the exception in flight afterwards. *)
Definition reported (r : result unit) : list event * result unit :=
  match r with
  | Ok a => ([], Ok a)
  | Raise (Error FileNotFoundError) =>
      ([ EPrint "Error: otelgen not found. Please install it with:";
         EPrint "go install github.com/krzko/otelgen@latest" ],
       Raise (SystemExit 1))
  | Raise (Error (OtherError msg)) =>
      ([ EPrint ("Error running otelgen: " ++ msg)%string ], Raise (SystemExit 1))
  | Raise e => ([], Raise e)
  end.

(** The loop of line 46 as data: the requests it makes over [ps] and the
    error that ends it early, if one does. *)
Fixpoint handler_pass (w : world) (ps : list handle)
  : list event * option error :=
  match ps with
  | [] => ([], None)
  | p :: ps' =>
      match terminate_error w InHandler p with
      | Some e => ([ETerminate p], Some e)
      | None => (ETerminate p :: fst (handler_pass w ps'), snd (handler_pass w ps'))
      end
  end.

(** ** Vocabulary for the further properties *)

(** The line of line 40 for one dictionary entry. *)
Definition announcement (a : args) (entry : string * list string) : event :=
  EPrint ("Starting " ++ fst entry ++ " generator: "
          ++ join " " (invocation a entry))%string.

(** The launch loop cut short as the [k]-th [Popen] call begins: [k] full
    turns, then the announcement of the next entry when there is one. *)
Definition interrupted_launch (a : args) (k : nat) : list event :=
  launch_events a k
  ++ map (announcement a) (firstn 1 (skipn k telemetry_commands)).

(** The moment before the handler is installed at which [k] children
    exist: the beginning of the [k]-th launch, or, after the loop, the gap
    before [signal.signal]. *)
Definition before_handler (k : nat) : point :=
  if Nat.ltb k 3 then AtPopen k else AtSignal.

(** The children asked to terminate, in the order of the requests. *)
Definition requests (t : list event) : list handle :=
  flat_map (fun e => match e with ETerminate p => [p] | _ => [] end) t.

(** [line] is the announcement line 40 prints for the command [cmd]. *)
Definition announces (line : string) (cmd : list string) : Prop :=
  exists telemetry_type,
    line = ("Starting " ++ telemetry_type ++ " generator: "
            ++ join " " cmd)%string.

(** Every [Popen] call of [t] comes right after the announcement of its
    own command line; [prev] is the event before [t]. *)
Fixpoint announced_after (prev : option event) (t : list event) : Prop :=
  match t with
  | [] => True
  | e :: t' =>
      match e with
      | EPopen cmd =>
          match prev with
          | Some (EPrint line) => announces line cmd
          | _ => False
          end
      | _ => True
      end
      /\ announced_after (Some e) t'
  end.

(** The line the handler prints. *)
Definition stopping : event :=
  EPrint (nl ++ "Stopping telemetry generation...")%string.

Definition is_stopping (e : event) : bool :=
  match e with
  | EPrint line => String.eqb line (nl ++ "Stopping telemetry generation...")
  | _ => false
  end.

(** What follows the first occurrence of the handler's line; nothing when
    the line is not printed. *)
Fixpoint after_stopping (t : list event) : list event :=
  match t with
  | [] => []
  | e :: t' => if is_stopping e then t' else after_stopping t'
  end.

(** * Proofs *)

(** ** Loops *)

Lemma try_pass_terminate (w : world) (p : handle) (s : state) :
  try_pass (terminate w InCleanup p) s = ([ETerminate p], s, Ok tt).
Proof.
  unfold try_pass, terminate, bind, emit.
  destruct (terminate_error w InCleanup p); reflexivity.
Qed.

Lemma cleanup_pass (w : world) (ps : list handle) (s : state) :
  for_each (fun p => try_pass (terminate w InCleanup p)) ps s
  = (map ETerminate ps, s, Ok tt).
Proof.
  induction ps as [|p ps IH]; simpl; [reflexivity|].
  unfold bind. rewrite try_pass_terminate, IH. reflexivity.
Qed.

Lemma cleanup_run (w : world) (s : state) :
  cleanup w s = (map ETerminate (processes s), s, Ok tt).
Proof.
  unfold cleanup, bind, get_processes. rewrite cleanup_pass. reflexivity.
Qed.

Lemma handler_loop (w : world) (ps : list handle) (s : state) :
  for_each (terminate w InHandler) ps s
  = (fst (handler_pass w ps), s,
     match snd (handler_pass w ps) with
     | Some e => Raise (Error e)
     | None => Ok tt
     end).
Proof.
  induction ps as [|p ps IH]; simpl; [reflexivity|].
  unfold bind at 1. unfold terminate at 1. unfold bind, emit, raise, ret.
  destruct (terminate_error w InHandler p) as [e|]; simpl; [reflexivity|].
  rewrite IH. destruct (snd (handler_pass w ps)); reflexivity.
Qed.

(** The handler never returns: it leaves by [SystemExit 0], or by the
    error of a termination request. *)
Lemma signal_handler_run (w : world) (s : state) :
  signal_handler w s
  = (EPrint (nl ++ "Stopping telemetry generation...")%string
       :: fst (handler_pass w (processes s)),
     s,
     Raise match snd (handler_pass w (processes s)) with
           | Some e => Error e
           | None => SystemExit 0
           end).
Proof.
  unfold signal_handler, bind, print, emit, get_processes, sys_exit, raise.
  rewrite handler_loop.
  destruct (snd (handler_pass w (processes s))); simpl;
    rewrite ?app_nil_r; reflexivity.
Qed.

Lemma spawned_handler_pass (w : world) (ps : list handle) :
  spawned (fst (handler_pass w ps)) = [].
Proof.
  induction ps as [|p ps IH]; simpl; [reflexivity|].
  destruct (terminate_error w InHandler p); simpl; auto.
Qed.

Lemma calls_handler_pass (w : world) (ps : list handle) :
  calls (fst (handler_pass w ps)) = [].
Proof.
  induction ps as [|p ps IH]; simpl; [reflexivity|].
  destruct (terminate_error w InHandler p); simpl; auto.
Qed.

(** ** The script as its [try] body followed by report and cleanup *)

Lemma main_banner (w : world) (a : args) (s : state) :
  main w a s
  = let '(t, s', r) := run_otelgen w (endpoint a) (rate a) (duration a) s in
    (map EPrint (banner a) ++ t, s', r).
Proof.
  unfold main, banner.
  destruct (duration a) as [d|]; [destruct (d =? 0)%Z|];
    unfold bind, print, emit, ret;
    destruct (run_otelgen w _ _ _ s) as [[t s'] r]; reflexivity.
Qed.

Lemma run_otelgen_unfold (w : world) (e : string) (r : Z) (d : option Z)
    (s : state) :
  run_otelgen w e r d s
  = let '(t, s', x) := try_body w (base_cmd e r d) s in
    (t ++ fst (reported x) ++ map ETerminate (processes s'), s', snd (reported x)).
Proof.
  unfold run_otelgen, try_except_finally.
  destruct (try_body w _ s) as [[t s'] x].
  destruct x as [[]|[[|msg]|code|]]; simpl;
    unfold bind, print, emit, sys_exit, raise; simpl;
    rewrite cleanup_run; reflexivity.
Qed.

Lemma script_unfold (w : world) (a : args) :
  script w a =
  let '(t, s, r) :=
    try_body w (base_cmd (endpoint a) (rate a) (duration a)) initial in
  (map EPrint (banner a) ++ t ++ fst (reported r)
     ++ map ETerminate (processes s),
   status_of (snd (reported r))).
Proof.
  unfold script. rewrite main_banner, run_otelgen_unfold.
  destruct (try_body w _ initial) as [[t s] r]. reflexivity.
Qed.

(** ** Observations and append *)

Lemma spawned_app (t u : list event) : spawned (t ++ u) = spawned t ++ spawned u.
Proof. apply flat_map_app. Qed.

Lemma calls_app (t u : list event) : calls (t ++ u) = calls t ++ calls u.
Proof. apply filter_app. Qed.

Lemma spawned_prints (l : list string) : spawned (map EPrint l) = [].
Proof. induction l; simpl; auto. Qed.

Lemma spawned_terminates (ps : list handle) : spawned (map ETerminate ps) = [].
Proof. induction ps; simpl; auto. Qed.

Lemma calls_prints (l : list string) : calls (map EPrint l) = [].
Proof. induction l; simpl; auto. Qed.

Lemma calls_terminates (ps : list handle) : calls (map ETerminate ps) = [].
Proof. induction ps; simpl; auto. Qed.

Lemma spawned_reported (r : result unit) : spawned (fst (reported r)) = [].
Proof. destruct r as [[]|[[|msg]|code|]]; reflexivity. Qed.

Lemma calls_reported (r : result unit) : calls (fst (reported r)) = [].
Proof. destruct r as [[]|[[|msg]|code|]]; reflexivity. Qed.

Lemma requests_app (t u : list event) : requests (t ++ u) = requests t ++ requests u.
Proof. apply flat_map_app. Qed.

Lemma requests_prints (l : list string) : requests (map EPrint l) = [].
Proof. induction l; simpl; auto. Qed.

Lemma requests_reported (r : result unit) : requests (fst (reported r)) = [].
Proof. destruct r as [[]|[[|msg]|code|]]; reflexivity. Qed.



Lemma stopped_skip (e : event) (t : list event) :
  is_stopping e = false -> existsb is_stopping (e :: t) = existsb is_stopping t.
Proof. intros H. cbn [existsb]. rewrite H. reflexivity. Qed.

Lemma stopped_found (e : event) (t : list event) :
  is_stopping e = true -> existsb is_stopping (e :: t) = true.
Proof. intros H. cbn [existsb]. rewrite H. reflexivity. Qed.

Lemma stopped_banner (a : args) :
  existsb is_stopping (map EPrint (banner a)) = false.
Proof.
  unfold banner.
  destruct (duration a) as [d|]; [destruct (d =? 0)%Z|]; reflexivity.
Qed.

Lemma stopped_reported (r : result unit) :
  existsb is_stopping (fst (reported r)) = false.
Proof. destruct r as [[]|[[|msg]|code|]]; reflexivity. Qed.

(** Around the [try] body only lines are printed and termination is
    requested, so the launches and waits of a run are those of the body. *)
Lemma spawned_script (w : world) (a : args) :
  spawned (fst (script w a))
  = spawned (fst (fst (try_body w (base_cmd (endpoint a) (rate a) (duration a))
                                initial))).
Proof.
  rewrite script_unfold. destruct (try_body w _ initial) as [[t s] r]. simpl.
  rewrite !spawned_app, spawned_prints, spawned_reported, spawned_terminates.
  simpl. apply app_nil_r.
Qed.

Lemma calls_script (w : world) (a : args) :
  calls (fst (script w a))
  = calls (fst (fst (try_body w (base_cmd (endpoint a) (rate a) (duration a))
                              initial))).
Proof.
  rewrite script_unfold. destruct (try_body w _ initial) as [[t s] r]. simpl.
  rewrite !calls_app, calls_prints, calls_reported, calls_terminates.
  simpl. apply app_nil_r.
Qed.

(** ** Running the [try] body against a world

    The body asks the world a bounded number of questions, in a fixed
    order.  [run_body] answers each from the hypotheses when it can and
    splits on the answer otherwise; the signal handler is replaced by its
    summary [signal_handler_run]. *)

Ltac reduce_body :=
  repeat
    (progress
       (cbv beta iota zeta delta
          [ try_body launch signal_signal popen wait deliver deliver_if negb
            terminate get_processes processes_append get_popen_calls count_popen
            install_handler
            print emit sys_exit raise ret bind for_each telemetry_commands
            initial processes popen_calls handler_installed app ];
        cbn [fst snd];
        rewrite ?signal_handler_run)).

Ltac known w :=
  match goal with
  | H : arrives w ?pt = _ |- context [arrives w ?pt] => rewrite H
  | H : popen_error w ?i = _ |- context [popen_error w ?i] => rewrite H
  | H : wait_error w ?p = _ |- context [wait_error w ?p] => rewrite H
  | H : terminate_error w ?from ?p = _
    |- context [terminate_error w ?from ?p] => rewrite H
  | H : sigint_late w = _ |- context [sigint_late w] => rewrite H
  | H : sigint w = _ |- context [arrives w _] =>
      unfold arrives; rewrite H; cbn [point_eqb Nat.eqb]
  end.

Ltac ask X := match goal with |- context [X] => destruct X eqn:? end.

Ltac ask_place w :=
  match goal with
  | H : arrives w (AtPopen _) = true |- context [sigint_late w] =>
      destruct (sigint_late w) eqn:?
  end.

Ltac next_question w :=
  first
    [ ask_place w
    | ask (arrives w (AtPopen 0)) | ask (popen_error w 0)
    | ask (arrives w (AtPopen 1)) | ask (popen_error w 1)
    | ask (arrives w (AtPopen 2)) | ask (popen_error w 2)
    | ask (arrives w AtSignal)
    | ask (arrives w (AtWait 0)) | ask (wait_error w 0)
    | ask (arrives w (AtWait 1)) | ask (wait_error w 1)
    | ask (arrives w (AtWait 2)) | ask (wait_error w 2) ].

Ltac run_body w :=
  reduce_body; repeat (first [known w | next_question w]; reduce_body).

Lemma try_body_calls (w : world) (base : list string) :
  exists n,
    calls (fst (fst (try_body w base initial)))
    = firstn n (map (fun entry => EPopen (base ++ snd entry)) telemetry_commands
                ++ map EWait [0; 1; 2]).
Proof.
  run_body w.
  all: cbn [calls filter is_call]; change (filter is_call) with calls;
    rewrite ?calls_handler_pass.
  all: first [ exists 0; reflexivity | exists 1; reflexivity
             | exists 2; reflexivity | exists 3; reflexivity
             | exists 4; reflexivity | exists 5; reflexivity
             | exists 6; reflexivity ].
Qed.

(** The list [processes] holds the children started so far, except when
    SIGINT falls between the return of a [Popen] call and the append: the
    last child is then running and missing from the list. *)
Lemma try_body_recorded (w : world) (base : list string) :
  processes (snd (fst (try_body w base initial)))
  = started w (fst (fst (try_body w base initial)))
  \/ (snd (try_body w base initial) = Raise KeyboardInterrupt
      /\ processes (snd (fst (try_body w base initial)))
         = removelast (started w (fst (fst (try_body w base initial))))).
Proof.
  run_body w.
  all: unfold started; cbn [spawned flat_map app];
    change (flat_map (fun e => match e with EPopen cmd => [cmd] | _ => [] end))
      with spawned;
    rewrite ?spawned_handler_pass; cbn [length seq filter];
    repeat (known w; cbn [filter]);
    first [ left; reflexivity | right; split; reflexivity ].
Qed.

Lemma try_body_started (w : world) (base : list string) :
  snd (try_body w base initial) <> Raise KeyboardInterrupt ->
  processes (snd (fst (try_body w base initial)))
  = started w (fst (fst (try_body w base initial))).
Proof.
  run_body w.
  all: intros H; try (destruct H; reflexivity).
  all: unfold started; cbn [spawned flat_map app];
    change (flat_map (fun e => match e with EPopen cmd => [cmd] | _ => [] end))
      with spawned;
    rewrite ?spawned_handler_pass; cbn [length seq filter];
    repeat (known w; cbn [filter]); reflexivity.
Qed.

(** Before the [finally] block only the signal handler asks children to
    terminate: when its line has been printed the requests are those of
    its loop over [processes], otherwise there are none. *)
Lemma try_body_handler_requests (w : world) (base : list string) :
  requests (fst (fst (try_body w base initial)))
  = if existsb is_stopping (fst (fst (try_body w base initial)))
    then requests (fst (handler_pass w
                          (processes (snd (fst (try_body w base initial))))))
    else [].
Proof.
  run_body w.
  all: cbn [processes];
    repeat (rewrite stopped_skip by reflexivity);
    try (rewrite stopped_found by reflexivity);
    cbn [existsb requests flat_map app];
    change (flat_map (fun e => match e with ETerminate p => [p] | _ => [] end))
      with requests;
    reflexivity.
Qed.

Lemma recorded_body (w : world) (a : args) :
  recorded w a
  = processes (snd (fst (try_body w (base_cmd (endpoint a) (rate a) (duration a))
                                  initial))).
Proof.
  unfold recorded. rewrite main_banner, run_otelgen_unfold.
  destruct (try_body w _ initial) as [[t s] r]. reflexivity.
Qed.

Lemma started_spawned (w : world) (t u : list event) :
  spawned t = spawned u -> started w t = started w u.
Proof. unfold started. intros ->. reflexivity. Qed.

Lemma started_script (w : world) (a : args) :
  started w (fst (script w a))
  = started w (fst (fst (try_body w (base_cmd (endpoint a) (rate a) (duration a))
                                  initial))).
Proof. apply started_spawned, spawned_script. Qed.

Lemma try_body_spawned (w : world) (base : list string) :
  exists n,
    spawned (fst (fst (try_body w base initial)))
    = firstn n (map (fun entry => base ++ snd entry) telemetry_commands).
Proof.
  run_body w.
  all: cbn [spawned flat_map app];
    change (flat_map (fun e => match e with EPopen cmd => [cmd] | _ => [] end))
      with spawned;
    rewrite ?spawned_handler_pass.
  all: first [ exists 0; reflexivity | exists 1; reflexivity
             | exists 2; reflexivity | exists 3; reflexivity ].
Qed.

(** Replaces a hypothesis about all ranks below a bound of at most 3 by
    its instances. *)
Ltac below_three H :=
  try pose proof (H 0 ltac:(lia));
  try pose proof (H 1 ltac:(lia));
  try pose proof (H 2 ltac:(lia));
  clear H;
  repeat match goal with H' : _ /\ _ |- _ => destruct H' end.

Lemma try_body_spawned_all (w : world) (base : list string) :
  launched w 3 ->
  spawned (fst (fst (try_body w base initial)))
  = map (fun entry => base ++ snd entry) telemetry_commands.
Proof.
  intros H. below_three H.
  run_body w.
  all: cbn [spawned flat_map app];
    change (flat_map (fun e => match e with EPopen cmd => [cmd] | _ => [] end))
      with spawned;
    rewrite ?spawned_handler_pass; reflexivity.
Qed.

Lemma base_cmd_options (a : args) :
  base_cmd (endpoint a) (rate a) (duration a)
  = fixed_options a ++ duration_option a.
Proof.
  unfold base_cmd, fixed_options, duration_option.
  destruct (duration a) as [d|]; [destruct (d =? 0)%Z|]; reflexivity.
Qed.

Lemma invocations_expected (a : args) :
  map (invocation a) telemetry_commands = expected_invocations a.
Proof.
  unfold invocation, expected_invocations, telemetry_commands.
  rewrite base_cmd_options. cbn [map snd].
  rewrite <- !app_assoc. reflexivity.
Qed.

Lemma launched_calm (k : nat) : launched calm k.
Proof. intros i _. split; reflexivity. Qed.

(** ** Two runs written out *)

(** A bounded run in which the three children exit by themselves. *)
Example bounded_run :
  script calm bounded_args
  = ([ EPrint "Starting telemetry generation...";
       EPrint "Endpoint: collector:4317";
       EPrint "Rate: 2 seconds";
       EPrint "Duration: 30 seconds";
       EPrint (nl ++ "Press Ctrl+C to stop")%string;
       EPrint "Starting traces generator: otelgen --otel-exporter-otlp-endpoint collector:4317 --rate 2 --service-name locol-test-generator --insecure --duration 30 traces multi";
       EPopen [ "otelgen"; "--otel-exporter-otlp-endpoint"; "collector:4317";
                "--rate"; "2"; "--service-name"; "locol-test-generator";
                "--insecure"; "--duration"; "30"; "traces"; "multi" ];
       EPrint "Starting metrics generator: otelgen --otel-exporter-otlp-endpoint collector:4317 --rate 2 --service-name locol-test-generator --insecure --duration 30 metrics sum";
       EPopen [ "otelgen"; "--otel-exporter-otlp-endpoint"; "collector:4317";
                "--rate"; "2"; "--service-name"; "locol-test-generator";
                "--insecure"; "--duration"; "30"; "metrics"; "sum" ];
       EPrint "Starting logs generator: otelgen --otel-exporter-otlp-endpoint collector:4317 --rate 2 --service-name locol-test-generator --insecure --duration 30 logs multi";
       EPopen [ "otelgen"; "--otel-exporter-otlp-endpoint"; "collector:4317";
                "--rate"; "2"; "--service-name"; "locol-test-generator";
                "--insecure"; "--duration"; "30"; "logs"; "multi" ];
       ESignal; EWait 0; EWait 1; EWait 2;
       ETerminate 0; ETerminate 1; ETerminate 2 ],
     Exit 0).
Proof. reflexivity. Qed.

(** The default configuration, interrupted while the script waits on the
    first child. *)
Example default_run_interrupted :
  script (interrupt_at (AtWait 0)) default_args
  = ([ EPrint "Starting telemetry generation...";
       EPrint "Endpoint: localhost:4317";
       EPrint "Rate: 5 seconds";
       EPrint (nl ++ "Press Ctrl+C to stop")%string;
       EPrint "Starting traces generator: otelgen --otel-exporter-otlp-endpoint localhost:4317 --rate 5 --service-name locol-test-generator --insecure traces multi";
       EPopen [ "otelgen"; "--otel-exporter-otlp-endpoint"; "localhost:4317";
                "--rate"; "5"; "--service-name"; "locol-test-generator";
                "--insecure"; "traces"; "multi" ];
       EPrint "Starting metrics generator: otelgen --otel-exporter-otlp-endpoint localhost:4317 --rate 5 --service-name locol-test-generator --insecure metrics sum";
       EPopen [ "otelgen"; "--otel-exporter-otlp-endpoint"; "localhost:4317";
                "--rate"; "5"; "--service-name"; "locol-test-generator";
                "--insecure"; "metrics"; "sum" ];
       EPrint "Starting logs generator: otelgen --otel-exporter-otlp-endpoint localhost:4317 --rate 5 --service-name locol-test-generator --insecure logs multi";
       EPopen [ "otelgen"; "--otel-exporter-otlp-endpoint"; "localhost:4317";
                "--rate"; "5"; "--service-name"; "locol-test-generator";
                "--insecure"; "logs"; "multi" ];
       ESignal; EWait 0;
       EPrint (nl ++ "Stopping telemetry generation...")%string;
       ETerminate 0; ETerminate 1; ETerminate 2;
       ETerminate 0; ETerminate 1; ETerminate 2 ],
     Exit 0).
Proof. reflexivity. Qed.

(** A termination request that raises inside the handler is not caught
    there: it surfaces in the [try] body and the run ends with status 1. *)
Example handler_request_raises :
  snd (script (World (fun _ => None) (fun _ => None)
                     (fun from p =>
                        match from, p with
                        | InHandler, 0 => Some (OtherError "[Errno 1] Operation not permitted")
                        | _, _ => None
                        end)
                     (Some (AtWait 0)))
              default_args)
  = Exit 1.
Proof. reflexivity. Qed.

(** An endpoint that reads like an option is still the value of the
    endpoint option, not a duration argument. *)
Example endpoint_is_a_value :
  map duration_argument
      (spawned (fst (script calm (Args "--duration" 5 None))))
  = [None; None; None].
Proof. reflexivity. Qed.

(** ** The statuses a run can end with *)



(** * The claims *)

(** C8.  In every run the launches and waits, taken in the order they
    happen, form an initial part of: launch traces, launch metrics,
    launch logs, wait 0, wait 1, wait 2.  So a wait is reached only after
    all three launches, made in dictionary order, and the waits follow
    launch order.  When nothing fails the whole sequence happens. *)
Theorem launches_precede_waits (w : world) (a : args) :
  (exists n, calls (fst (script w a)) = firstn n (canonical a))
  /\ calls (fst (script calm a)) = canonical a.
Proof.
  split.
  - rewrite calls_script. apply try_body_calls.
  - rewrite calls_script. unfold canonical, invocation.
    generalize (base_cmd (endpoint a) (rate a) (duration a)) as base.
    intros base. reflexivity.
Qed.

(** C7.  Every run ends with the cleanup pass, whatever path led there
    (all waits done, an error, SIGINT with or without the handler): the
    trace is some events [pre] followed by one termination request for
    each handle recorded in [processes], in launch order.  These requests
    are the pass itself and not the handler's: the requests inside [pre]
    are exactly those of the handler's own loop when its line has been
    printed, and none otherwise.  The recorded handles are all the
    started children, except when SIGINT ends the run between a [Popen]
    call and the append, where the last child is not recorded.  What the
    requests of the pass answer changes nothing: the same world with any
    other answers for them gives the same trace and the same status. *)
Theorem cleanup_on_every_path (w : world) (a : args) :
  (exists pre,
     fst (script w a) = pre ++ map ETerminate (recorded w a)
     /\ requests pre
        = if existsb is_stopping pre
          then requests (fst (handler_pass w (recorded w a)))
          else [])
  /\ (recorded w a = started w (fst (script w a))
      \/ (snd (script w a) = Interrupted
          /\ recorded w a = removelast (started w (fst (script w a)))))
  /\ (forall f, script (with_cleanup_errors f w) a = script w a).
Proof.
  split; [|split].
  - rewrite recorded_body, script_unfold.
    pose proof (try_body_handler_requests w
                  (base_cmd (endpoint a) (rate a) (duration a))) as H.
    destruct (try_body w _ initial) as [[t s] r]. cbn [fst snd] in *.
    exists (map EPrint (banner a) ++ t ++ fst (reported r)). split.
    + rewrite <- !app_assoc. reflexivity.
    + rewrite !requests_app, requests_prints, requests_reported, app_nil_r.
      rewrite !existsb_app, stopped_banner, stopped_reported, orb_false_r.
      exact H.
  - rewrite recorded_body, started_script, script_unfold.
    destruct (try_body_recorded w (base_cmd (endpoint a) (rate a) (duration a)))
      as [H|[Hr H]].
    + left. exact H.
    + right. split; [|exact H].
      destruct (try_body w _ initial) as [[t s] r]. cbn [fst snd] in *.
      rewrite Hr. reflexivity.
  - intros f. rewrite !script_unfold. reflexivity.
Qed.

(** C4.  Whatever the configuration, when the three launches go through,
    the command lines handed to [Popen] over the whole run are exactly one
    per dictionary entry, in dictionary order; the entries are traces,
    metrics and logs, each once.  The wait phase is arbitrary here
    (errors, interrupt), so nothing is launched again after start-up. *)
Theorem one_child_per_workload (w : world) (a : args) :
  launched w 3 ->
  spawned (fst (script w a)) = map (invocation a) telemetry_commands
  /\ map fst telemetry_commands = ["traces"; "metrics"; "logs"]
  /\ NoDup (map fst telemetry_commands).
Proof.
  intros H. split; [|split].
  - rewrite spawned_script. apply try_body_spawned_all, H.
  - reflexivity.
  - simpl. repeat constructor; simpl; intuition discriminate.
Qed.

(** The statement above at the default configuration, in a world where
    the wait on the second child raises. *)
Lemma one_child_per_workload_witness :
  launched (wait_failure 1 (OtherError "connection reset")) 3
  /\ (spawned (fst (script (wait_failure 1 (OtherError "connection reset"))
                           default_args))
      = map (invocation default_args) telemetry_commands
      /\ map fst telemetry_commands = ["traces"; "metrics"; "logs"]
      /\ NoDup (map fst telemetry_commands)).
Proof.
  assert (H : launched (wait_failure 1 (OtherError "connection reset")) 3)
    by (intros i _; split; reflexivity).
  split; [exact H | exact (one_child_per_workload _ default_args H)].
Defined.

(** C5.  Every command line handed to [Popen] is, at its rank, the one
    written out in [expected_invocations]: [otelgen], the endpoint option
    and its value, the rate option and its value, the fixed service name,
    [--insecure], the duration option when there is one, then
    [traces multi], [metrics sum] or [logs multi].  When nothing fails all
    three are launched. *)
Theorem invocation_shape (w : world) (a : args) :
  (exists n, spawned (fst (script w a)) = firstn n (expected_invocations a))
  /\ spawned (fst (script calm a)) = expected_invocations a.
Proof.
  rewrite <- invocations_expected. split.
  - rewrite spawned_script. apply try_body_spawned.
  - rewrite spawned_script. apply try_body_spawned_all, launched_calm.
Qed.

Lemma Forall_firstn {A} (P : A -> Prop) (n : nat) (l : list A) :
  Forall P l -> Forall P (firstn n l).
Proof.
  intros H. revert n. induction H as [|x l Hx Hl IH]; intros [|n]; simpl; auto.
Qed.

(** Reading the options of a command line of the script. *)
Lemma duration_argument_invocation (a : args) :
  Forall (fun cmd => duration_argument cmd
                     = match duration a with
                       | None => None
                       | Some d => if (d =? 0)%Z then None else Some (str d)
                       end)
         (expected_invocations a).
Proof.
  unfold expected_invocations, duration_option, fixed_options.
  destruct (duration a) as [d|]; [destruct (d =? 0)%Z|];
    repeat constructor.
Qed.

Lemma rate_argument_invocation (a : args) :
  Forall (fun cmd => rate_argument cmd = Some (str (rate a)))
         (expected_invocations a).
Proof.
  unfold expected_invocations, fixed_options. repeat constructor.
Qed.

Lemma spawned_expected (w : world) (a : args) (P : list string -> Prop) :
  Forall P (expected_invocations a) -> Forall P (spawned (fst (script w a))).
Proof.
  intros H. rewrite spawned_script, <- invocations_expected in *.
  destruct (try_body_spawned w (base_cmd (endpoint a) (rate a) (duration a)))
    as [n ->].
  apply Forall_firstn, H.
Qed.

(** C3.  For every configuration with rate > 0 and a duration that, when
    present, is > 0: if the duration is absent, the command line built
    for each of the three workloads has no duration argument; if it is
    present, the command line built for each of the three workloads has
    the duration argument with [str] of that value.  These command lines
    are the ones handed to [Popen]: in every run the launches are an
    initial part of them, and all three when nothing fails. *)
Theorem duration_argument_passed (a : args) :
  (0 < rate a)%Z ->
  (forall d, duration a = Some d -> (0 < d)%Z) ->
  (duration a = None ->
   Forall (fun entry => duration_argument (invocation a entry) = None)
          telemetry_commands)
  /\ (forall d, duration a = Some d ->
      Forall (fun entry => duration_argument (invocation a entry) = Some (str d))
             telemetry_commands)
  /\ (forall w, exists n,
        spawned (fst (script w a))
        = firstn n (map (invocation a) telemetry_commands))
  /\ spawned (fst (script calm a)) = map (invocation a) telemetry_commands.
Proof.
  intros _ Hd.
  pose proof (duration_argument_invocation a) as H.
  rewrite <- invocations_expected in H. apply Forall_map in H.
  split; [|split; [|split]].
  - intros E. rewrite E in H. exact H.
  - intros d E. rewrite E in H. specialize (Hd d E).
    destruct (Z.eqb_spec d 0) as [E0|_]; [lia|exact H].
  - intros w. rewrite spawned_script. apply try_body_spawned.
  - rewrite spawned_script. apply try_body_spawned_all, launched_calm.
Qed.

(** The statement above at endpoint collector:4317, rate 2, duration 30. *)
Lemma duration_argument_passed_witness :
  (0 < rate bounded_args)%Z
  /\ (forall d, duration bounded_args = Some d -> (0 < d)%Z)
  /\ Forall (fun entry =>
               duration_argument (invocation bounded_args entry) = Some (str 30))
            telemetry_commands
  /\ spawned (fst (script calm bounded_args))
     = map (invocation bounded_args) telemetry_commands.
Proof.
  assert (Hr : (0 < rate bounded_args)%Z) by reflexivity.
  assert (Hd : forall d, duration bounded_args = Some d -> (0 < d)%Z)
    by (intros d E; injection E as <-; reflexivity).
  split; [exact Hr|]. split; [exact Hd|].
  pose proof (duration_argument_passed bounded_args Hr Hd) as (_ & H & _ & Hs).
  split; [exact (H 30%Z eq_refl) | exact Hs].
Defined.

(** C9.  A duration of 0 is treated as no duration: the whole run (every
    printed line, every call, the status) is the one of the same
    configuration without a duration; what is printed before the run
    operation starts is the four lines without a duration line; and no
    command line handed to [Popen] has a duration argument. *)
Theorem zero_duration_as_absent (w : world) (e : string) (r : Z) :
  script w (Args e r (Some 0%Z)) = script w (Args e r None)
  /\ fst (script w (Args e r (Some 0%Z)))
     = map EPrint [ "Starting telemetry generation...";
                    ("Endpoint: " ++ e)%string;
                    ("Rate: " ++ str r ++ " seconds")%string;
                    (nl ++ "Press Ctrl+C to stop")%string ]
       ++ fst (fst (run_otelgen w e r (Some 0%Z) initial))
  /\ Forall (fun cmd => duration_argument cmd = None)
            (spawned (fst (script w (Args e r (Some 0%Z))))).
Proof.
  split; [reflexivity|]. split.
  - unfold script. rewrite main_banner.
    destruct (run_otelgen w _ _ _ initial) as [[t s] x]. reflexivity.
  - exact (spawned_expected w _ _
             (duration_argument_invocation (Args e r (Some 0%Z)))).
Qed.

(** C10, as stated, fails at a present duration of 0: with rate -1 and
    duration 0 the three children are launched, the rate goes through as
    [-1], but the duration is not written into any command line. *)
Lemma zero_duration_not_stringified :
  spawned (fst (script calm negative_rate_args))
  = [ [ "otelgen"; "--otel-exporter-otlp-endpoint"; "localhost:4317";
        "--rate"; "-1"; "--service-name"; "locol-test-generator";
        "--insecure"; "traces"; "multi" ];
      [ "otelgen"; "--otel-exporter-otlp-endpoint"; "localhost:4317";
        "--rate"; "-1"; "--service-name"; "locol-test-generator";
        "--insecure"; "metrics"; "sum" ];
      [ "otelgen"; "--otel-exporter-otlp-endpoint"; "localhost:4317";
        "--rate"; "-1"; "--service-name"; "locol-test-generator";
        "--insecure"; "logs"; "multi" ] ]
  /\ duration negative_rate_args = Some 0%Z
  /\ Forall (fun cmd => ~ In (str 0) cmd)
            (spawned (fst (script calm negative_rate_args))).
Proof.
  split; [reflexivity|]. split; [reflexivity|].
  repeat constructor; simpl; intuition discriminate.
Qed.

(** C10, amended.  Nothing is validated: for every integer rate and every
    duration that is absent or not 0, negative values included, a run
    whose launches go through starts three children, each with the rate
    argument [str rate] and, when there is a duration, the duration
    argument [str duration]. *)
Theorem values_passed_verbatim (w : world) (a : args) :
  launched w 3 ->
  (forall d, duration a = Some d -> d <> 0%Z) ->
  length (spawned (fst (script w a))) = 3
  /\ Forall (fun cmd => rate_argument cmd = Some (str (rate a))
                        /\ duration_argument cmd = option_map str (duration a))
            (spawned (fst (script w a))).
Proof.
  intros Hl Hd. split.
  - rewrite spawned_script, try_body_spawned_all by exact Hl. reflexivity.
  - apply spawned_expected.
    pose proof (rate_argument_invocation a) as Hr.
    pose proof (duration_argument_invocation a) as Hq.
    assert (E : match duration a with
                | None => None
                | Some d => if (d =? 0)%Z then None else Some (str d)
                end = option_map str (duration a)).
    { destruct (duration a) as [d|]; [|reflexivity].
      destruct (Z.eqb_spec d 0) as [E|_]; [|reflexivity].
      destruct (Hd d eq_refl E). }
    rewrite E in Hq. clear E.
    induction Hr as [|cmd l Hc Hr IH]; inversion Hq; subst; constructor; auto.
Qed.

(** The statement above at rate -2 and duration -30. *)
Lemma values_passed_verbatim_witness :
  launched calm 3
  /\ (forall d, duration negative_args = Some d -> d <> 0%Z)
  /\ length (spawned (fst (script calm negative_args))) = 3
  /\ Forall (fun cmd => rate_argument cmd = Some (str (-2))
                        /\ duration_argument cmd = Some (str (-30)))
            (spawned (fst (script calm negative_args))).
Proof.
  assert (Hl : launched calm 3) by (intros i _; split; reflexivity).
  assert (Hd : forall d, duration negative_args = Some d -> d <> 0%Z)
    by (intros d E; injection E as <-; discriminate).
  split; [exact Hl|]. split; [exact Hd|].
  exact (values_passed_verbatim calm negative_args Hl Hd).
Defined.

(** ** Runs that end in an error or an interrupt *)

Lemma try_body_raises (w : world) (a : args) (st : stage) (e : error) :
  raises w st e ->
  try_body w (base_cmd (endpoint a) (rate a) (duration a)) initial
  = (events_until a st,
     State (children_at st)
           (match st with Launching k => S k | Waiting _ => 3 end)
           (match st with Launching _ => false | Waiting _ => true end),
     Raise (Error e)).
Proof.
  unfold events_until, launch_events, invocation.
  generalize (base_cmd (endpoint a) (rate a) (duration a)) as base.
  intros base.
  destruct st as [k|p]; cbn [raises].
  - intros (Hk & Hl & Hs & He).
    destruct k as [|[|[|k]]]; [| | |lia]; below_three Hl;
      run_body w; reflexivity.
  - intros (Hp & Hl & Hs & Hq & Hi & He).
    destruct p as [|[|[|p]]]; [| | |lia]; below_three Hl; below_three Hq;
      run_body w; reflexivity.
Qed.

Lemma try_body_interrupted (w : world) (a : args) (p : handle) :
  p < 3 ->
  (forall i, i < 3 -> popen_error w i = None) ->
  (forall q, q < p -> wait_error w q = None) ->
  sigint w = Some (AtWait p) ->
  (forall q, q < 3 -> terminate_error w InHandler q = None) ->
  try_body w (base_cmd (endpoint a) (rate a) (duration a)) initial
  = (launch_events a 3 ++ [ESignal] ++ map EWait (seq 0 (S p))
       ++ [EPrint (nl ++ "Stopping telemetry generation...")%string]
       ++ map ETerminate [0; 1; 2],
     State [0; 1; 2] 3 true,
     Raise (SystemExit 0)).
Proof.
  unfold launch_events, invocation.
  generalize (base_cmd (endpoint a) (rate a) (duration a)) as base.
  intros base Hp Hl Hq Hs Ht.
  destruct p as [|[|[|p]]]; [| | |lia]; below_three Hl; below_three Hq;
    below_three Ht; run_body w; cbn [handler_pass]; repeat known w;
    reflexivity.
Qed.

Lemma script_of_body (w : world) (a : args) (t : list event) (s : state)
    (r : result unit) :
  try_body w (base_cmd (endpoint a) (rate a) (duration a)) initial = (t, s, r) ->
  script w a
  = (map EPrint (banner a) ++ t ++ fst (reported r)
       ++ map ETerminate (processes s),
     status_of (snd (reported r))).
Proof. intros E. rewrite script_unfold, E. reflexivity. Qed.

(** C2.  When the [k]-th launch raises [FileNotFoundError], the run is:
    the banner; the announcements and [Popen] calls of the entries up to
    the [k]-th and of no later entry; the two lines of the remediation
    message, the second being the installation command; one termination
    request for each of the [k] children started before; exit status 1. *)
Theorem missing_binary (w : world) (a : args) (k : nat) :
  raises w (Launching k) FileNotFoundError ->
  script w a
  = (map EPrint (banner a)
       ++ launch_events a (S k)
       ++ [ EPrint "Error: otelgen not found. Please install it with:";
            EPrint "go install github.com/krzko/otelgen@latest" ]
       ++ map ETerminate (seq 0 k),
     Exit 1).
Proof.
  intros H. apply (script_of_body w a _ _ _ (try_body_raises w a _ _ H)).
Qed.

(** The statement above when the second launch does not find the program. *)
Lemma missing_binary_witness :
  raises (launch_failure 1 FileNotFoundError) (Launching 1) FileNotFoundError
  /\ script (launch_failure 1 FileNotFoundError) default_args
     = (map EPrint (banner default_args)
          ++ launch_events default_args 2
          ++ [ EPrint "Error: otelgen not found. Please install it with:";
               EPrint "go install github.com/krzko/otelgen@latest" ]
          ++ map ETerminate (seq 0 1),
        Exit 1).
Proof.
  assert (H : raises (launch_failure 1 FileNotFoundError) (Launching 1)
                     FileNotFoundError).
  { simpl. repeat split; try lia; destruct i; try lia; reflexivity. }
  split; [exact H | exact (missing_binary _ default_args 1 H)].
Defined.

(** C6.  When a launch or a wait raises an error other than
    [FileNotFoundError], the run is: the banner; the events of the [try]
    body up to the call that raises; one line made of
    [Error running otelgen: ] and the error's text; one termination
    request for each child started so far; exit status 1. *)
Theorem other_error (w : world) (a : args) (st : stage) (msg : string) :
  raises w st (OtherError msg) ->
  script w a
  = (map EPrint (banner a)
       ++ events_until a st
       ++ [ EPrint ("Error running otelgen: " ++ msg)%string ]
       ++ map ETerminate (children_at st),
     Exit 1).
Proof.
  intros H. apply (script_of_body w a _ _ _ (try_body_raises w a _ _ H)).
Qed.

(** The statement above when the wait on the second child raises. *)
Lemma other_error_witness :
  raises (wait_failure 1 (OtherError "[Errno 4] Interrupted system call"))
         (Waiting 1) (OtherError "[Errno 4] Interrupted system call")
  /\ script (wait_failure 1 (OtherError "[Errno 4] Interrupted system call"))
            bounded_args
     = (map EPrint (banner bounded_args)
          ++ events_until bounded_args (Waiting 1)
          ++ [ EPrint ("Error running otelgen: "
                       ++ "[Errno 4] Interrupted system call")%string ]
          ++ map ETerminate (children_at (Waiting 1)),
        Exit 1).
Proof.
  assert (H : raises (wait_failure 1 (OtherError "[Errno 4] Interrupted system call"))
                     (Waiting 1)
                     (OtherError "[Errno 4] Interrupted system call")).
  { simpl. repeat split; try lia; destruct q; try lia; reflexivity. }
  split; [exact H | exact (other_error _ bounded_args (Waiting 1) _ H)].
Defined.

(** C1, as stated, fails: SIGINT arriving after the third launch and
    before line 50 finds no handler installed.  The three children have
    been launched; the run ends by an unhandled [KeyboardInterrupt], not
    by exit status 0, and the line of the handler is never printed. *)
Lemma interrupt_before_handler :
  sigint (interrupt_at AtSignal) = Some AtSignal
  /\ length (spawned (fst (script (interrupt_at AtSignal) default_args))) = 3
  /\ snd (script (interrupt_at AtSignal) default_args) = Interrupted
  /\ snd (script (interrupt_at AtSignal) default_args) <> Exit 0
  /\ ~ In (EPrint (nl ++ "Stopping telemetry generation...")%string)
          (fst (script (interrupt_at AtSignal) default_args)).
Proof.
  repeat split; [discriminate|].
  simpl. intuition discriminate.
Qed.

(** C1, amended.  When SIGINT arrives while the script waits on child [p]
    (the three launches went through, the handler is installed) and the
    handler's termination requests do not raise, the run is: the banner;
    the three launches; the handler installation; the waits up to the one
    on [p]; the handler's line; a termination request for each of the
    three children; no further wait; the cleanup pass; exit status 0. *)
Theorem interrupt_during_wait (w : world) (a : args) (p : handle) :
  p < 3 ->
  (forall i, i < 3 -> popen_error w i = None) ->
  (forall q, q < p -> wait_error w q = None) ->
  sigint w = Some (AtWait p) ->
  (forall q, q < 3 -> terminate_error w InHandler q = None) ->
  script w a
  = (map EPrint (banner a)
       ++ launch_events a 3
       ++ [ESignal]
       ++ map EWait (seq 0 (S p))
       ++ [EPrint (nl ++ "Stopping telemetry generation...")%string]
       ++ map ETerminate [0; 1; 2]
       ++ map ETerminate [0; 1; 2],
     Exit 0).
Proof.
  intros Hp Hl Hq Hs Ht.
  rewrite (script_of_body w a _ _ _ (try_body_interrupted w a p Hp Hl Hq Hs Ht)).
  cbn [reported fst snd status_of processes].
  rewrite <- !app_assoc. reflexivity.
Qed.

(** The statement above when SIGINT arrives during the wait on the second
    child. *)
Lemma interrupt_during_wait_witness :
  1 < 3
  /\ (forall i, i < 3 -> popen_error (interrupt_at (AtWait 1)) i = None)
  /\ (forall q, q < 1 -> wait_error (interrupt_at (AtWait 1)) q = None)
  /\ sigint (interrupt_at (AtWait 1)) = Some (AtWait 1)
  /\ (forall q, q < 3 ->
      terminate_error (interrupt_at (AtWait 1)) InHandler q = None)
  /\ script (interrupt_at (AtWait 1)) bounded_args
     = (map EPrint (banner bounded_args)
          ++ launch_events bounded_args 3
          ++ [ESignal]
          ++ map EWait (seq 0 2)
          ++ [EPrint (nl ++ "Stopping telemetry generation...")%string]
          ++ map ETerminate [0; 1; 2]
          ++ map ETerminate [0; 1; 2],
        Exit 0).
Proof.
  assert (Hp : 1 < 3) by lia.
  assert (Hl : forall i, i < 3 -> popen_error (interrupt_at (AtWait 1)) i = None)
    by reflexivity.
  assert (Hq : forall q, q < 1 -> wait_error (interrupt_at (AtWait 1)) q = None)
    by reflexivity.
  assert (Hs : sigint (interrupt_at (AtWait 1)) = Some (AtWait 1))
    by reflexivity.
  assert (Ht : forall q, q < 3 ->
               terminate_error (interrupt_at (AtWait 1)) InHandler q = None)
    by reflexivity.
  repeat (split; [assumption|]).
  exact (interrupt_during_wait _ bounded_args 1 Hp Hl Hq Hs Ht).
Defined.

(** * Further properties of the script *)

(** ** The remaining paths through the [try] body *)

Lemma try_body_completes (w : world) (a : args) :
  launched w 3 ->
  arrives w AtSignal = false ->
  (forall p, p < 3 -> wait_error w p = None /\ arrives w (AtWait p) = false) ->
  try_body w (base_cmd (endpoint a) (rate a) (duration a)) initial
  = (launch_events a 3 ++ [ESignal] ++ map EWait [0; 1; 2],
     State [0; 1; 2] 3 true, Ok tt).
Proof.
  unfold launch_events, invocation.
  generalize (base_cmd (endpoint a) (rate a) (duration a)) as base.
  intros base Hl Hs Hw. below_three Hl. below_three Hw.
  run_body w. reflexivity.
Qed.

Lemma try_body_early_interrupt (w : world) (a : args) (k : nat) :
  k <= 3 ->
  (forall i, i < k -> popen_error w i = None) ->
  sigint w = Some (before_handler k) ->
  (k < 3 -> sigint_late w = false) ->
  try_body w (base_cmd (endpoint a) (rate a) (duration a)) initial
  = (interrupted_launch a k, State (seq 0 k) k false, Raise KeyboardInterrupt).
Proof.
  unfold interrupted_launch, launch_events, announcement, invocation.
  generalize (base_cmd (endpoint a) (rate a) (duration a)) as base.
  intros base Hk Hl Hs Hp.
  destruct k as [|[|[|[|k]]]]; [| | | |lia]; cbn [before_handler Nat.ltb Nat.leb] in Hs;
    below_three Hl; try specialize (Hp ltac:(lia)); run_body w; reflexivity.
Qed.

Lemma try_body_unrecorded (w : world) (a : args) (k : nat) :
  k < 3 ->
  (forall i, i < S k -> popen_error w i = None) ->
  sigint w = Some (AtPopen k) ->
  sigint_late w = true ->
  try_body w (base_cmd (endpoint a) (rate a) (duration a)) initial
  = (launch_events a (S k), State (seq 0 k) (S k) false, Raise KeyboardInterrupt).
Proof.
  unfold launch_events, invocation.
  generalize (base_cmd (endpoint a) (rate a) (duration a)) as base.
  intros base Hk Hl Hs Hp.
  destruct k as [|[|[|k]]]; [| | |lia];
    below_three Hl; run_body w; reflexivity.
Qed.

Lemma try_body_failing_request (w : world) (a : args) (p q : handle)
    (e : error) :
  p < 3 -> q < 3 ->
  (forall i, i < 3 -> popen_error w i = None) ->
  (forall j, j < p -> wait_error w j = None) ->
  sigint w = Some (AtWait p) ->
  (forall j, j < q -> terminate_error w InHandler j = None) ->
  terminate_error w InHandler q = Some e ->
  try_body w (base_cmd (endpoint a) (rate a) (duration a)) initial
  = (launch_events a 3 ++ [ESignal] ++ map EWait (seq 0 (S p))
       ++ [stopping] ++ map ETerminate (seq 0 (S q)),
     State [0; 1; 2] 3 true,
     Raise (Error e)).
Proof.
  unfold launch_events, invocation, stopping.
  generalize (base_cmd (endpoint a) (rate a) (duration a)) as base.
  intros base Hp Hq Hl Hw Hs Ht He.
  destruct p as [|[|[|p]]]; [| | |lia];
    (destruct q as [|[|[|q]]]; [| | |lia]);
    below_three Hl; below_three Hw; below_three Ht;
    run_body w; cbn [handler_pass]; repeat known w; reflexivity.
Qed.

(** X2.  When the three launches go through, no signal arrives and no
    wait raises, the run is: the banner; the three announcements and
    launches; the handler installation; the three waits in launch order;
    one termination request for each child, although all have already
    been waited for; exit status 0. *)
Theorem normal_completion (w : world) (a : args) :
  launched w 3 ->
  arrives w AtSignal = false ->
  (forall p, p < 3 -> wait_error w p = None /\ arrives w (AtWait p) = false) ->
  script w a
  = (map EPrint (banner a)
       ++ launch_events a 3
       ++ [ESignal]
       ++ map EWait [0; 1; 2]
       ++ map ETerminate [0; 1; 2],
     Exit 0).
Proof.
  intros Hl Hs Hw.
  rewrite (script_of_body w a _ _ _ (try_body_completes w a Hl Hs Hw)).
  cbn [reported fst snd status_of processes app].
  rewrite <- !app_assoc. reflexivity.
Qed.

(** The statement above at rate -2 and duration -30, when nothing fails. *)
Lemma normal_completion_witness :
  launched calm 3
  /\ arrives calm AtSignal = false
  /\ (forall p, p < 3 ->
      wait_error calm p = None /\ arrives calm (AtWait p) = false)
  /\ script calm negative_args
     = (map EPrint (banner negative_args)
          ++ launch_events negative_args 3
          ++ [ESignal]
          ++ map EWait [0; 1; 2]
          ++ map ETerminate [0; 1; 2],
        Exit 0).
Proof.
  assert (Hl : launched calm 3) by (intros i _; split; reflexivity).
  assert (Hs : arrives calm AtSignal = false) by reflexivity.
  assert (Hw : forall p, p < 3 ->
               wait_error calm p = None /\ arrives calm (AtWait p) = false)
    by (intros p _; split; reflexivity).
  repeat (split; [assumption|]).
  exact (normal_completion calm negative_args Hl Hs Hw).
Defined.

(** X3.  When SIGINT arrives before line 50 has run, at a moment where
    the [k] children started so far are all recorded (as the [k]-th
    [Popen] call begins, or after the launch loop has recorded the third
    child and before [signal.signal]), the run is: the banner; the [k]
    launches and the announcement of the next entry if there is one; one
    termination request for each of the [k] children; and it ends by an
    unhandled [KeyboardInterrupt].  Neither the handler's line nor an
    error line is printed, and no exit status is chosen by the script. *)
Theorem early_interrupt (w : world) (a : args) (k : nat) :
  k <= 3 ->
  (forall i, i < k -> popen_error w i = None) ->
  sigint w = Some (before_handler k) ->
  (k < 3 -> sigint_late w = false) ->
  script w a
  = (map EPrint (banner a)
       ++ interrupted_launch a k
       ++ map ETerminate (seq 0 k),
     Interrupted).
Proof.
  intros Hk Hl Hs Hp.
  rewrite (script_of_body w a _ _ _ (try_body_early_interrupt w a k Hk Hl Hs Hp)).
  reflexivity.
Qed.

(** The statement above when SIGINT arrives as the second launch begins. *)
Lemma early_interrupt_witness :
  1 <= 3
  /\ (forall i, i < 1 -> popen_error (interrupt_at (AtPopen 1)) i = None)
  /\ sigint (interrupt_at (AtPopen 1)) = Some (before_handler 1)
  /\ (1 < 3 -> sigint_late (interrupt_at (AtPopen 1)) = false)
  /\ script (interrupt_at (AtPopen 1)) bounded_args
     = (map EPrint (banner bounded_args)
          ++ interrupted_launch bounded_args 1
          ++ map ETerminate (seq 0 1),
        Interrupted).
Proof.
  assert (Hk : 1 <= 3) by lia.
  assert (Hl : forall i, i < 1 -> popen_error (interrupt_at (AtPopen 1)) i = None)
    by reflexivity.
  assert (Hs : sigint (interrupt_at (AtPopen 1)) = Some (before_handler 1))
    by reflexivity.
  assert (Hp : 1 < 3 -> sigint_late (interrupt_at (AtPopen 1)) = false)
    by reflexivity.
  repeat (split; [assumption|]).
  exact (early_interrupt _ bounded_args 1 Hk Hl Hs Hp).
Defined.

(** X12.  A child is recorded one statement after it is started.  When
    SIGINT arrives between the return of the [k]-th [Popen] call (line
    41) and [processes.append] (line 42), that child is running and is
    not in [processes]: the run is the banner, the launches up to and
    including the [k]-th, one termination request for each of the [k]
    children recorded before, and an unhandled [KeyboardInterrupt].  The
    child just started is never asked to terminate. *)
Theorem interrupt_before_append (w : world) (a : args) (k : nat) :
  k < 3 ->
  (forall i, i < S k -> popen_error w i = None) ->
  sigint w = Some (AtPopen k) ->
  sigint_late w = true ->
  script w a
  = (map EPrint (banner a)
       ++ launch_events a (S k)
       ++ map ETerminate (seq 0 k),
     Interrupted)
  /\ started w (fst (script w a)) = seq 0 (S k)
  /\ ~ In (ETerminate k) (fst (script w a)).
Proof.
  intros Hk Hl Hs Hp.
  assert (E : script w a
              = (map EPrint (banner a) ++ launch_events a (S k)
                   ++ map ETerminate (seq 0 k), Interrupted)).
  { rewrite (script_of_body w a _ _ _ (try_body_unrecorded w a k Hk Hl Hs Hp)).
    reflexivity. }
  split; [exact E|]. rewrite E. cbn [fst]. split.
  - rewrite (started_spawned w _ (launch_events a (S k))).
    + destruct k as [|[|[|k]]]; [| | |lia]; below_three Hl;
        unfold started; cbn; repeat (known w; cbn); reflexivity.
    + rewrite !spawned_app, spawned_prints, spawned_terminates, app_nil_r.
      reflexivity.
  - intros Hin. apply in_app_or in Hin. destruct Hin as [Hin|Hin].
    { apply in_map_iff in Hin. destruct Hin as (x & Hx & _). discriminate. }
    apply in_app_or in Hin. destruct Hin as [Hin|Hin].
    + destruct k as [|[|[|k]]]; [| | |lia]; cbn in Hin;
        intuition discriminate.
    + apply in_map_iff in Hin. destruct Hin as (x & Hx & Hin).
      injection Hx as ->. apply in_seq in Hin. lia.
Qed.

(** The statement above when SIGINT arrives just after the third child
    has been started: children 0 and 1 are asked to terminate, child 2 is
    not. *)
Lemma interrupt_before_append_witness :
  2 < 3
  /\ (forall i, i < 3 ->
      popen_error (MkWorld (fun _ => None) (fun _ => None) (fun _ _ => None)
                           (Some (AtPopen 2)) true) i = None)
  /\ script (MkWorld (fun _ => None) (fun _ => None) (fun _ _ => None)
                     (Some (AtPopen 2)) true)
            default_args
     = (map EPrint (banner default_args)
          ++ launch_events default_args 3
          ++ map ETerminate [0; 1],
        Interrupted)
  /\ started (MkWorld (fun _ => None) (fun _ => None) (fun _ _ => None)
                      (Some (AtPopen 2)) true)
             (fst (script (MkWorld (fun _ => None) (fun _ => None)
                                   (fun _ _ => None) (Some (AtPopen 2)) true)
                          default_args))
     = [0; 1; 2]
  /\ ~ In (ETerminate 2)
          (fst (script (MkWorld (fun _ => None) (fun _ => None)
                                (fun _ _ => None) (Some (AtPopen 2)) true)
                       default_args)).
Proof.
  assert (Hk : 2 < 3) by lia.
  assert (Hl : forall i, i < 3 ->
               popen_error (MkWorld (fun _ => None) (fun _ => None)
                                    (fun _ _ => None) (Some (AtPopen 2)) true) i
               = None) by reflexivity.
  split; [exact Hk|]. split; [exact Hl|].
  exact (interrupt_before_append _ default_args 2 Hk Hl eq_refl eq_refl).
Defined.

(** X4.  The handler does not guard its termination requests.  When
    SIGINT arrives during the wait on [p] and the handler's request to
    child [q] raises [e], the handler stops there: children after [q] get
    no request from it, [sys.exit(0)] is not reached, the error is
    reported by the [except] clauses like an error of the wait itself,
    the cleanup pass then asks all three children to terminate, and the
    exit status is 1. *)
Theorem interrupt_with_failing_request (w : world) (a : args) (p q : handle)
    (e : error) :
  p < 3 -> q < 3 ->
  (forall i, i < 3 -> popen_error w i = None) ->
  (forall j, j < p -> wait_error w j = None) ->
  sigint w = Some (AtWait p) ->
  (forall j, j < q -> terminate_error w InHandler j = None) ->
  terminate_error w InHandler q = Some e ->
  script w a
  = (map EPrint (banner a)
       ++ launch_events a 3
       ++ [ESignal]
       ++ map EWait (seq 0 (S p))
       ++ [stopping]
       ++ map ETerminate (seq 0 (S q))
       ++ fst (reported (Raise (Error e)))
       ++ map ETerminate [0; 1; 2],
     Exit 1).
Proof.
  intros Hp Hq Hl Hw Hs Ht He.
  rewrite (script_of_body w a _ _ _
             (try_body_failing_request w a p q e Hp Hq Hl Hw Hs Ht He)).
  cbn [fst snd processes]. rewrite <- !app_assoc.
  destruct e as [|msg]; reflexivity.
Qed.

(** The statement above when SIGINT arrives during the first wait and the
    request to the second child is refused. *)
Lemma interrupt_with_failing_request_witness :
  0 < 3 /\ 1 < 3
  /\ script (World (fun _ => None) (fun _ => None)
                   (fun from q =>
                      match from, q with
                      | InHandler, 1 => Some (OtherError "[Errno 1] Operation not permitted")
                      | _, _ => None
                      end)
                   (Some (AtWait 0)))
            default_args
     = (map EPrint (banner default_args)
          ++ launch_events default_args 3
          ++ [ESignal]
          ++ map EWait (seq 0 1)
          ++ [stopping]
          ++ map ETerminate (seq 0 2)
          ++ [EPrint "Error running otelgen: [Errno 1] Operation not permitted"]
          ++ map ETerminate [0; 1; 2],
        Exit 1).
Proof.
  assert (Hp : 0 < 3) by lia.
  assert (Hq : 1 < 3) by lia.
  repeat (split; [assumption|]).
  apply (interrupt_with_failing_request _ default_args 0 1
           (OtherError "[Errno 1] Operation not permitted") Hp Hq).
  - reflexivity.
  - intros j Hj. lia.
  - reflexivity.
  - intros j Hj. destruct j; [reflexivity|lia].
  - reflexivity.
Defined.

(** X5.  The clause of line 56 catches [FileNotFoundError] wherever the
    [try] body raises it.  When it is a wait that raises it, with all
    three children running, the script still prints the two lines that
    say otelgen is not installed, then asks the three children to
    terminate and exits with status 1. *)
Theorem file_not_found_while_waiting (w : world) (a : args) (p : handle) :
  raises w (Waiting p) FileNotFoundError ->
  script w a
  = (map EPrint (banner a)
       ++ launch_events a 3
       ++ [ESignal]
       ++ map EWait (seq 0 (S p))
       ++ [ EPrint "Error: otelgen not found. Please install it with:";
            EPrint "go install github.com/krzko/otelgen@latest" ]
       ++ map ETerminate [0; 1; 2],
     Exit 1).
Proof.
  intros H.
  rewrite (script_of_body w a _ _ _ (try_body_raises w a _ _ H)).
  cbn [events_until children_at reported fst snd status_of processes].
  rewrite <- !app_assoc. reflexivity.
Qed.

(** The statement above when the wait on the third child raises. *)
Lemma file_not_found_while_waiting_witness :
  raises (wait_failure 2 FileNotFoundError) (Waiting 2) FileNotFoundError
  /\ script (wait_failure 2 FileNotFoundError) default_args
     = (map EPrint (banner default_args)
          ++ launch_events default_args 3
          ++ [ESignal]
          ++ map EWait (seq 0 3)
          ++ [ EPrint "Error: otelgen not found. Please install it with:";
               EPrint "go install github.com/krzko/otelgen@latest" ]
          ++ map ETerminate [0; 1; 2],
        Exit 1).
Proof.
  assert (H : raises (wait_failure 2 FileNotFoundError) (Waiting 2)
                     FileNotFoundError).
  { simpl. repeat split; try lia; destruct q as [|[|q]]; try lia; reflexivity. }
  split; [exact H | exact (file_not_found_while_waiting _ default_args 2 H)].
Defined.

(** ** Termination requests *)



(** ** What the way a run ends tells about it *)

Lemma try_body_exit_zero (w : world) (base : list string) :
  status_of (snd (reported (snd (try_body w base initial)))) = Exit 0 ->
  In stopping (fst (fst (try_body w base initial)))
  \/ calls (fst (fst (try_body w base initial)))
     = map (fun entry => EPopen (base ++ snd entry)) telemetry_commands
       ++ map EWait [0; 1; 2].
Proof.
  run_body w.
  all: try match goal with
           | |- context [handler_pass ?v ?ps] =>
               intros _; left; unfold stopping; cbn [In]; tauto
           end.
  all: try match goal with
           | e : error |- _ => destruct e; cbn; discriminate
           end.
  all: cbn; first [discriminate | intros _; right; reflexivity].
Qed.

(** X7.  A run that ends with exit status 0 either went through the
    signal handler, whose line is then in the output, or made all three
    launches and all three waits.  The script never reports success after
    giving up part of the way for any other reason. *)
Theorem exit_zero_meaning (w : world) (a : args) :
  snd (script w a) = Exit 0 ->
  In stopping (fst (script w a)) \/ calls (fst (script w a)) = canonical a.
Proof.
  rewrite calls_script, script_unfold.
  pose proof (try_body_exit_zero w (base_cmd (endpoint a) (rate a) (duration a)))
    as H.
  destruct (try_body w _ initial) as [[t s] r]. cbn [fst snd] in *.
  intros E. destruct (H E) as [Hin|Hc]; [left|right; exact Hc].
  apply in_or_app. right. apply in_or_app. left. exact Hin.
Qed.

(** The statement above for the default configuration interrupted during
    the first wait. *)
Lemma exit_zero_meaning_witness :
  snd (script (interrupt_at (AtWait 0)) default_args) = Exit 0
  /\ (In stopping (fst (script (interrupt_at (AtWait 0)) default_args))
      \/ calls (fst (script (interrupt_at (AtWait 0)) default_args))
         = canonical default_args).
Proof.
  assert (H : snd (script (interrupt_at (AtWait 0)) default_args) = Exit 0)
    by reflexivity.
  split; [exact H | exact (exit_zero_meaning _ default_args H)].
Defined.



Lemma not_signal_in_prints (l : list string) : ~ In ESignal (map EPrint l).
Proof. induction l; simpl; intuition discriminate. Qed.

Lemma not_signal_in_terminates (ps : list handle) :
  ~ In ESignal (map ETerminate ps).
Proof. induction ps; simpl; intuition discriminate. Qed.

Lemma not_signal_in_reported (r : result unit) : ~ In ESignal (fst (reported r)).
Proof. destruct r as [[]|[[|msg]|code|]]; simpl; intuition discriminate. Qed.

Lemma try_body_handler_installed (w : world) (base : list string) :
  In ESignal (fst (fst (try_body w base initial))) ->
  processes (snd (fst (try_body w base initial))) = [0; 1; 2]
  /\ snd (try_body w base initial) <> Raise KeyboardInterrupt.
Proof.
  run_body w.
  all: intros H;
    first [ exfalso; cbn [In] in H; intuition discriminate
          | split; [reflexivity|];
            try match goal with
                | |- context [handler_pass ?v ?ps] =>
                    destruct (handler_pass v ps) as [t [e|]]
                end;
            discriminate ].
Qed.

(** X9.  The SIGINT handler is installed only after all three launches
    have succeeded: a run in which [signal.signal] is called has three
    started children.  Such a run then always ends with an exit status:
    an unhandled [KeyboardInterrupt] can end the script only before the
    handler is installed. *)
Theorem handler_installed_late (w : world) (a : args) :
  In ESignal (fst (script w a)) ->
  started w (fst (script w a)) = [0; 1; 2]
  /\ snd (script w a) <> Interrupted.
Proof.
  rewrite started_script, script_unfold.
  pose proof (try_body_handler_installed w
                (base_cmd (endpoint a) (rate a) (duration a))) as H.
  pose proof (try_body_started w
                (base_cmd (endpoint a) (rate a) (duration a))) as Hs.
  destruct (try_body w _ initial) as [[t s] r]. cbn [fst snd] in *.
  intros Hin.
  assert (Ht : In ESignal t).
  { apply in_app_or in Hin. destruct Hin as [Hin|Hin];
      [destruct (not_signal_in_prints _ Hin)|].
    apply in_app_or in Hin. destruct Hin as [Hin|Hin]; [exact Hin|].
    apply in_app_or in Hin. destruct Hin as [Hin|Hin];
      [destruct (not_signal_in_reported _ Hin)
      |destruct (not_signal_in_terminates _ Hin)]. }
  destruct (H Ht) as [Hp Hr]. split; [rewrite <- (Hs Hr); exact Hp|].
  destruct r as [[]|[[|msg]|code|]]; cbn; try discriminate.
  contradiction.
Qed.

(** The statement above for a bounded run in which nothing fails. *)
Lemma handler_installed_late_witness :
  In ESignal (fst (script calm bounded_args))
  /\ started calm (fst (script calm bounded_args)) = [0; 1; 2]
  /\ snd (script calm bounded_args) <> Interrupted.
Proof.
  assert (H : In ESignal (fst (script calm bounded_args)))
    by (simpl; tauto).
  split; [exact H | exact (handler_installed_late calm bounded_args H)].
Defined.

(** ** Announcements *)

Lemma announced_quiet (t : list event) :
  spawned t = [] -> forall prev, announced_after prev t.
Proof.
  induction t as [|e t IH]; intros H prev; cbn [announced_after]; [exact I|].
  destruct e; cbn [spawned flat_map app] in H; try discriminate;
    (split; [exact I | apply IH, H]).
Qed.

Lemma announced_app (t u : list event) (prev : option event) :
  announced_after prev t ->
  (forall prev', announced_after prev' u) ->
  announced_after prev (t ++ u).
Proof.
  revert prev. induction t as [|e t IH]; intros prev Ht Hu; cbn [app].
  - apply Hu.
  - destruct Ht as [He Ht]. split; [exact He | apply IH; assumption].
Qed.

Lemma try_body_announced (w : world) (base : list string)
    (prev : option event) :
  announced_after prev (fst (fst (try_body w base initial))).
Proof.
  run_body w.
  all: cbn [announced_after];
    repeat match goal with
           | |- _ /\ _ => split
           | |- True => exact I
           | |- announces _ _ => eexists; reflexivity
           | |- announced_after _ (fst (handler_pass _ _)) =>
               apply announced_quiet, spawned_handler_pass
           end.
Qed.

(** X10.  In every run each [Popen] call comes directly after the line
    [Starting <type> generator: ] followed by the words of the very
    command line given to that call, joined by single spaces: what the
    log shows is what is launched, and nothing is launched
    unannounced. *)
Theorem launches_announced (w : world) (a : args) :
  announced_after None (fst (script w a)).
Proof.
  rewrite script_unfold.
  pose proof (try_body_announced w (base_cmd (endpoint a) (rate a) (duration a)))
    as H.
  destruct (try_body w _ initial) as [[t s] r]. cbn [fst snd] in *.
  apply announced_app; [apply announced_quiet, spawned_prints|].
  intros prev. apply announced_app; [apply H|].
  intros prev'. apply announced_app;
    [apply announced_quiet, spawned_reported|].
  intros prev''. apply announced_quiet, spawned_terminates.
Qed.

(** The predicate is not satisfied by a launch without its line. *)
Example unannounced_launch :
  ~ announced_after None [EPrint "Starting"; EPopen ["otelgen"]].
Proof. intros [_ [[ty E] _]]. destruct ty; discriminate. Qed.

(** ** After the handler's line *)

Lemma after_stopping_banner (a : args) (t : list event) :
  after_stopping (map EPrint (banner a) ++ t) = after_stopping t.
Proof.
  unfold banner.
  destruct (duration a) as [d|]; [destruct (d =? 0)%Z|]; reflexivity.
Qed.

Lemma after_stopping_terminates (ps : list handle) :
  after_stopping (map ETerminate ps) = [].
Proof. induction ps; simpl; auto. Qed.

Lemma after_stopping_skip (e : event) (t : list event) :
  is_stopping e = false -> after_stopping (e :: t) = after_stopping t.
Proof. intros H. cbn [after_stopping]. rewrite H. reflexivity. Qed.

Lemma after_stopping_found (e : event) (t : list event) :
  is_stopping e = true -> after_stopping (e :: t) = t.
Proof. intros H. cbn [after_stopping]. rewrite H. reflexivity. Qed.

Lemma after_stopping_report (r : result unit) (ps : list handle) :
  after_stopping (fst (reported r) ++ map ETerminate ps) = [].
Proof.
  destruct r as [[]|[[|msg]|code|]]; cbn [reported fst app];
    try apply after_stopping_terminates;
    repeat (rewrite after_stopping_skip by reflexivity);
    apply after_stopping_terminates.
Qed.

Lemma try_body_after_stopping (w : world) (base : list string)
    (u : list event) :
  calls u = [] ->
  after_stopping u = [] ->
  calls (after_stopping (fst (fst (try_body w base initial)) ++ u)) = [].
Proof.
  intros Hu Ha. run_body w.
  all: cbn [app];
    repeat (rewrite after_stopping_skip by reflexivity);
    try (rewrite after_stopping_found by reflexivity);
    rewrite ?Ha, ?calls_app, ?calls_handler_pass, ?Hu; reflexivity.
Qed.

(** X11.  Once the handler has printed its line the script makes no
    further launch and no further wait, whatever the termination
    requests answer: all that follows is termination requests and, when
    a request of the handler raised, an error report. *)
Theorem nothing_after_stopping (w : world) (a : args) :
  calls (after_stopping (fst (script w a))) = [].
Proof.
  rewrite script_unfold.
  pose proof (try_body_after_stopping w
                (base_cmd (endpoint a) (rate a) (duration a))) as H.
  destruct (try_body w _ initial) as [[t s] r]. cbn [fst snd] in *.
  rewrite after_stopping_banner. apply H.
  - rewrite calls_app, calls_reported, calls_terminates. reflexivity.
  - apply after_stopping_report.
Qed.

(** In the interrupted run of the default configuration something does
    follow the handler's line: six termination requests. *)
Example after_stopping_default :
  after_stopping (fst (script (interrupt_at (AtWait 0)) default_args))
  = map ETerminate [0; 1; 2; 0; 1; 2].
Proof. reflexivity. Qed.
